(** * notify: a client of the desktop notification service over D-Bus

    A shallow embedding of [notification.go].  The package is a thin layer
    over the bus library: every operation builds one method call, hands it
    to the connection, and decodes the reply.  The embedding keeps that
    shape:

    - Go values that cross the bus are boxed values [iface] carrying their
      dynamic type, as [interface{}] does;
    - the effects (the round trip to the server, [log.Printf], reading the
      receiver through its pointer) are threaded through a small state
      monad [M] whose outcome is either a returned value or a panic;
    - the server side is a parameter [serve] of the development: a function
      from a request and the state of the bus to a reply and a new state,
      so that every theorem holds for every server and every test double. *)

From stdpp Require Import base option list strings gmap.
From Stdlib Require Import ZArith Lia.

Open Scope string_scope.
Open Scope Z_scope.
Open Scope list_scope.
Set Warnings "-register-all".

(** ** Go data *)

(** A Go slice is either [nil] or a (possibly empty) backing sequence; the
    two are different values of length zero. *)
Inductive slice (A : Type) : Type :=
| nil_slice
| mk_slice (elems : list A).
Arguments nil_slice {A}.
Arguments mk_slice {A} elems.

Definition slice_elems {A} (s : slice A) : list A :=
  match s with
  | nil_slice => []
  | mk_slice l => l
  end.

Definition len {A} (s : slice A) : nat := length (slice_elems s).

Definition is_nil {A} (s : slice A) : bool :=
  match s with
  | nil_slice => true
  | mk_slice _ => false
  end.

(** [uint32(x)] for an integer [x]: the low 32 bits are kept. *)
Definition uint32_max : Z := 0xFFFFFFFF.
Definition to_uint32 (x : Z) : Z := Z.land x uint32_max.

(** [dbus.Variant]: a value together with its type tag. *)
Inductive Variant : Type :=
| VarByte (b : Z)
| VarBool (b : bool)
| VarInt32 (i : Z)
| VarUint32 (u : Z)
| VarInt64 (i : Z)
| VarString (s : string)
| VarStrings (l : list string)
| VarBytes (l : list Z).

(** [map[string]dbus.Variant]: [None] is the nil map. *)
Definition hints_map : Type := option (gmap string Variant).

(** The dynamic types of the values that travel in a call or a reply. *)
Inductive gotype : Type :=
| TBool | TByte | TInt32 | TUint32 | TInt64 | TUint64
| TString | TObjectPath | TStrings | THints | TVariant | TStruct.

Global Instance gotype_eq_dec : EqDecision gotype.
Proof. solve_decision. Defined.

(** An [interface{}] holding one of those values. *)
Inductive iface : Type :=
| IBool (b : bool)
| IByte (b : Z)
| IInt32 (i : Z)
| IUint32 (u : Z)
| IInt64 (i : Z)
| IUint64 (u : Z)
| IString (s : string)
| IObjectPath (p : string)
| IStrings (l : slice string)
| IHints (m : hints_map)
| IVariant (v : Variant)
| IStruct (fields : list iface).

Definition type_of (v : iface) : gotype :=
  match v with
  | IBool _ => TBool
  | IByte _ => TByte
  | IInt32 _ => TInt32
  | IUint32 _ => TUint32
  | IInt64 _ => TInt64
  | IUint64 _ => TUint64
  | IString _ => TString
  | IObjectPath _ => TObjectPath
  | IStrings _ => TStrings
  | IHints _ => THints
  | IVariant _ => TVariant
  | IStruct _ => TStruct
  end.

(** Go's [error]: [None] is nil.  A non-nil error is either made by
    [errors.New] or is the bus library's [dbus.Error] (an error reply of the
    server, or a failure of the connection reported under a name). *)
Inductive error_value : Type :=
| errors_New (msg : string)
| dbus_Error (name : string) (body : list iface).

Definition error : Type := option error_value.

(** ** The package's types *)

(** An established connection to the bus ([*dbus.Conn]); the nil handle is
    not part of the model: the caller connects before using the package. *)
Definition Conn : Type := positive.

(** [type notifier struct { conn *dbus.Conn }] *)
Record notifier : Type := Build_notifier { conn : Conn }.

Record Notification : Type := Build_Notification {
  AppName : string;
  ReplacesID : Z;
  AppIcon : string;
  Summary : string;
  Body : string;
  Actions : slice string;
  Hints : hints_map;
  ExpireTimeout : Z
}.

Record ServerInformation : Type := Build_ServerInformation {
  Name : string;
  Vendor : string;
  Version : string;
  SpecVersion : string
}.

(** The package constants. *)
Definition objectPath : string := "/org/freedesktop/Notifications".
Definition dbusNotificationsInterface : string := "org.freedesktop.Notifications".
Definition getCapabilities : string := "org.freedesktop.Notifications.GetCapabilities".
Definition closeNotification : string := "org.freedesktop.Notifications.CloseNotification".
Definition notify : string := "org.freedesktop.Notifications.Notify".
Definition getServerInformation : string := "org.freedesktop.Notifications.GetServerInformation".

(** ** The bus library, as far as the package uses it *)

Module dbus.

(** What leaves the process in one [Object.Call]. *)
Record request : Type := Build_request {
  rq_conn : Conn;
  rq_dest : string;
  rq_path : string;
  rq_method : string;
  rq_flags : Z;
  rq_args : list iface
}.

(** [*dbus.Call] once the call is done: the error of the round trip and
    the values of the reply. *)
Record Call : Type := Build_Call {
  Err : error;
  Body : list iface
}.

(** [*dbus.Object]; [None] is the nil pointer. *)
Record Object : Type := Build_Object {
  o_conn : Conn;
  o_dest : string;
  o_path : string
}.

(** [conn.Object(dest, path)] only records its arguments. *)
Definition Conn_Object (c : Conn) (dest path : string) : option Object :=
  Some (Build_Object c dest path).

Definition length_mismatch : error_value := errors_New "dbus.Store: length mismatch".
Definition type_mismatch : error_value := errors_New "dbus.Store: type mismatch".

(** Modelled from the spec: the reply decoder of the bus library
    ([dbus.Store]) is not among the sources.  The spec's decode fault is a
    reply that "does not match the expected shape/arity/type", decoding is
    positional, and "fields not yet decoded retain zero-value".  A
    destination pointer is represented by the current content of the
    variable it points to; the result is the content of the variables
    afterwards and the error.  [store_each] walks the reply and the
    destinations together and stops at the first value whose dynamic type
    is not the type of its destination. *)
Fixpoint store_each (src dest : list iface) : list iface * error :=
  match src, dest with
  | v :: src', d :: dest' =>
      if decide (type_of d = type_of v) then
        let '(dest'', err) := store_each src' dest' in (v :: dest'', err)
      else (d :: dest', Some type_mismatch)
  | _, _ => (dest, None)
  end.

Definition Store (src dest : list iface) : list iface * error :=
  if decide (length src = length dest) then store_each src dest
  else (dest, Some length_mismatch).

(** [call.Store(dest...)]: the error of the call itself comes first. *)
Definition Call_Store (c : Call) (dest : list iface) : list iface * error :=
  match Err c with
  | Some e => (dest, Some e)
  | None => Store (Body c) dest
  end.

(** Reading a destination variable back after [Store]. *)
Definition uint32_at (i : nat) (vars : list iface) : Z :=
  match vars !! i with
  | Some (IUint32 u) => u
  | _ => 0
  end.

Definition string_at (i : nat) (vars : list iface) : string :=
  match vars !! i with
  | Some (IString s) => s
  | _ => ""
  end.

Definition strings_at (i : nat) (vars : list iface) : slice string :=
  match vars !! i with
  | Some (IStrings l) => l
  | _ => nil_slice
  end.

End dbus.

(** ** Effects *)

(** One operand of [log.Printf]. *)
Inductive log_operand : Type :=
| LString (s : string)
| LError (e : error).

Record log_line : Type := Build_log_line {
  format : string;
  operands : list log_operand
}.

(** How a Go call ends: it returns, or it panics. *)
Inductive outcome (A : Type) : Type :=
| Returned (a : A)
| Panicked (msg : string).
Arguments Returned {A} a.
Arguments Panicked {A} msg.

Definition nil_dereference : string :=
  "runtime error: invalid memory address or nil pointer dereference".

(** A [*notifier]: [None] is nil, [Some l] the address of a notifier in the
    heap. *)
Definition notifier_ptr : Type := option positive.

Section Client.

(** The state of the bus and of the server behind it, and the round trip:
    the request goes out, a completed call comes back. *)
Variable Bus : Type.
Variable serve : dbus.request -> Bus -> dbus.Call * Bus.

(** Everything an operation can read or change: the notifiers the program
    has allocated, the bus, the requests sent so far (oldest first), and
    the lines written by [log.Printf]. *)
Record world : Type := Build_world {
  heap : gmap positive notifier;
  bus : Bus;
  wire : list dbus.request;
  logged : list log_line
}.

Definition M (A : Type) : Type := world -> outcome A * world.

Definition ret {A} (a : A) : M A := fun w => (Returned a, w).

Definition panic {A} (msg : string) : M A := fun w => (Panicked msg, w).

Definition bind {A B} (m : M A) (k : A -> M B) : M B :=
  fun w =>
    match m w with
    | (Returned a, w') => k a w'
    | (Panicked msg, w') => (Panicked msg, w')
    end.

Notation "'do' x <- m ; k" := (bind m (fun x => k))
  (at level 10, x name, m at level 100, k at level 200).
Notation "m ;; k" := (bind m (fun _ => k))
  (at level 100, k at level 200, right associativity).

(** [*self]: reading through a nil pointer panics.  An address outside
    the heap does not exist in Go; the model makes it a panic too. *)
Definition deref (self : notifier_ptr) : M notifier :=
  fun w =>
    match self with
    | None => panic nil_dereference w
    | Some l =>
        match heap w !! l with
        | Some s => ret s w
        | None => panic nil_dereference w
        end
    end.

(** [&notifier{...}]: a fresh address. *)
Definition alloc (s : notifier) : M notifier_ptr :=
  fun w =>
    let l := fresh (dom (heap w)) in
    (Returned (Some l),
     Build_world (<[l := s]> (heap w)) (bus w) (wire w) (logged w)).

(** [obj.Call(method, flags, args...)]: one blocking round trip. *)
Definition Object_Call (obj : option dbus.Object) (method : string)
    (flags : Z) (args : list iface) : M dbus.Call :=
  fun w =>
    match obj with
    | None => panic nil_dereference w
    | Some o =>
        let rq := dbus.Build_request (dbus.o_conn o) (dbus.o_dest o)
                    (dbus.o_path o) method flags args in
        let '(call, b) := serve rq (bus w) in
        (Returned call, Build_world (heap w) b (wire w ++ [rq]) (logged w))
    end.

(** The world with one more line in the log. *)
Definition with_log_line (w : world) (fmt : string) (ops : list log_operand)
    : world :=
  Build_world (heap w) (bus w) (wire w) (logged w ++ [Build_log_line fmt ops]).

Definition log_Printf (fmt : string) (ops : list log_operand) : M unit :=
  fun w => (Returned tt, with_log_line w fmt ops).

(** ** The package *)

(** [func New(conn *dbus.Conn) Notifier] *)
Definition New (c : Conn) : M notifier_ptr :=
  alloc (Build_notifier c).

(** [func SendNotification(conn *dbus.Conn, n Notification) (uint32, error)] *)
Definition SendNotification (c : Conn) (n : Notification) : M (Z * error) :=
  let obj := dbus.Conn_Object c dbusNotificationsInterface objectPath in
  do call <- Object_Call obj notify 0
               [IString (AppName n);
                IUint32 (ReplacesID n);
                IString (AppIcon n);
                IString (Summary n);
                IString (Body n);
                IStrings (Actions n);
                IHints (Hints n);
                IInt32 (ExpireTimeout n)];
  match dbus.Err call with
  | Some e => ret (0, Some e)
  | None =>
      let '(vars, err) := dbus.Call_Store call [IUint32 0] in
      let r := dbus.uint32_at 0 vars in
      match err with
      | Some e =>
          log_Printf "error getting uint32 ret value: %v" [LError err] ;;
          ret (r, err)
      | None => ret (r, None)
      end
  end.

(** [func (self *notifier) SendNotification(n Notification) (uint32, error)] *)
Definition notifier_SendNotification (self : notifier_ptr)
    (n : Notification) : M (Z * error) :=
  do s <- deref self;
  SendNotification (conn s) n.

(** [func (self *notifier) GetCapabilities() ([]string, error)] *)
Definition GetCapabilities (self : notifier_ptr) : M (slice string * error) :=
  do s <- deref self;
  let obj := dbus.Conn_Object (conn s) dbusNotificationsInterface objectPath in
  do call <- Object_Call obj getCapabilities 0 [];
  match dbus.Err call with
  | Some e =>
      log_Printf "error calling GetCapabilities: %v" [LError (dbus.Err call)] ;;
      ret (mk_slice [], dbus.Err call)
  | None =>
      let '(vars, err) := dbus.Call_Store call [IStrings nil_slice] in
      let r := dbus.strings_at 0 vars in
      match err with
      | Some e =>
          log_Printf "error getting capabilities ret value: %v" [LError err] ;;
          ret (r, err)
      | None => ret (r, None)
      end
  end.

(** [func (self *notifier) CloseNotification(id int) (bool, error)] *)
Definition CloseNotification (self : notifier_ptr) (id : Z) : M (bool * error) :=
  do s <- deref self;
  let obj := dbus.Conn_Object (conn s) dbusNotificationsInterface objectPath in
  do call <- Object_Call obj closeNotification 0 [IUint32 (to_uint32 id)];
  match dbus.Err call with
  | Some e => ret (false, dbus.Err call)
  | None => ret (true, None)
  end.

(** [ServerInformation{}] *)
Definition ServerInformation_zero : ServerInformation :=
  Build_ServerInformation "" "" "" "".

(** [func (self *notifier) GetServerInformation() (ServerInformation, error)] *)
Definition GetServerInformation (self : notifier_ptr)
    : M (ServerInformation * error) :=
  do s <- deref self;
  let obj := dbus.Conn_Object (conn s) dbusNotificationsInterface objectPath in
  match obj with
  | None =>
      ret (ServerInformation_zero,
           Some (errors_New "error creating dbus call object"))
  | Some _ =>
      do call <- Object_Call obj getServerInformation 0 [];
      match dbus.Err call with
      | Some e =>
          log_Printf "Error calling %v: %v"
            [LString getServerInformation; LError (dbus.Err call)] ;;
          ret (ServerInformation_zero, dbus.Err call)
      | None =>
          let r := ServerInformation_zero in
          let '(vars, err) :=
            dbus.Call_Store call
              [IString (Name r); IString (Vendor r);
               IString (Version r); IString (SpecVersion r)] in
          let r := Build_ServerInformation
                     (dbus.string_at 0 vars) (dbus.string_at 1 vars)
                     (dbus.string_at 2 vars) (dbus.string_at 3 vars) in
          match err with
          | Some e =>
              log_Printf "error reading %v return values: %v"
                [LString getServerInformation; LError err] ;;
              ret (r, err)
          | None => ret (r, None)
          end
      end
  end.

(** *** Vocabulary of the properties *)

(** The world after the round trip of request [rq]. *)
Definition after_call (rq : dbus.request) (w : world) : world :=
  Build_world (heap w) (serve rq (bus w)).2 (wire w ++ [rq]) (logged w).

(** A computation that leaves the heap as it found it. *)
Definition keeps_heap {A} (m : M A) : Prop :=
  forall w, heap (m w).2 = heap w.

End Client.

Arguments Build_world {Bus} heap bus wire logged.
Arguments heap {Bus} w.
Arguments bus {Bus} w.
Arguments wire {Bus} w.
Arguments logged {Bus} w.
Arguments ret {Bus A} a w.
Arguments bind {Bus A B} m k w.
Arguments deref {Bus} self w.
Arguments alloc {Bus} s w.
Arguments Object_Call {Bus} serve obj method flags args w.
Arguments with_log_line {Bus} w fmt ops.
Arguments log_Printf {Bus} fmt ops w.
Arguments after_call {Bus} serve rq w.
Arguments keeps_heap {Bus A} m.
Arguments New {Bus} c w.
Arguments SendNotification {Bus} serve c n w.
Arguments notifier_SendNotification {Bus} serve self n w.
Arguments GetCapabilities {Bus} serve self w.
Arguments CloseNotification {Bus} serve self id w.
Arguments GetServerInformation {Bus} serve self w.

(** The request that [SendNotification] builds from a notification. *)
Definition notify_request (c : Conn) (n : Notification) : dbus.request :=
  dbus.Build_request c dbusNotificationsInterface objectPath notify 0
    [IString (AppName n); IUint32 (ReplacesID n); IString (AppIcon n);
     IString (Summary n); IString (Body n); IStrings (Actions n);
     IHints (Hints n); IInt32 (ExpireTimeout n)].

(** The requests of the three methods of a notifier on connection [c]. *)
Definition capabilities_request (c : Conn) : dbus.request :=
  dbus.Build_request c dbusNotificationsInterface objectPath getCapabilities 0 [].

Definition close_request (c : Conn) (id : Z) : dbus.request :=
  dbus.Build_request c dbusNotificationsInterface objectPath closeNotification 0
    [IUint32 (to_uint32 id)].

Definition information_request (c : Conn) : dbus.request :=
  dbus.Build_request c dbusNotificationsInterface objectPath
    getServerInformation 0 [].

(** What a reply lets [GetServerInformation] decode: the strings at the front
    of a reply of four values, up to the first value that is not a string;
    nothing when the reply does not have four values. *)
Fixpoint leading_strings (vs : list iface) : list string :=
  match vs with
  | IString s :: vs' => s :: leading_strings vs'
  | _ => []
  end.

Definition decoded_strings (body : list iface) : list string :=
  if decide (length body = 4%nat) then leading_strings body else [].

(** Field [i] of the result: the string decoded at position [i], or the
    empty string when decoding did not get that far. *)
Definition field_at (i : nat) (decoded : list string) : string :=
  default "" (decoded !! i).

(** ** Test doubles of the server *)

Module Double.

Definition replaces_id (args : list iface) : Z :=
  match args !! 1%nat with
  | Some (IUint32 r) => r
  | _ => 0
  end.

Definition reply (vs : list iface) : dbus.Call := dbus.Build_Call None vs.

Definition refuse (name : string) : dbus.Call :=
  dbus.Build_Call (Some (dbus_Error name [])) [].

(** A server that follows the notification protocol.  Its state is the
    last id it handed out: a notification that replaces nothing gets the
    next id, a replacement keeps the id it replaces. *)
Definition honest (rq : dbus.request) (last : Z) : dbus.Call * Z :=
  let m := dbus.rq_method rq in
  if String.eqb m notify then
    let r := replaces_id (dbus.rq_args rq) in
    if Z.eqb r 0 then (reply [IUint32 (last + 1)], last + 1)
    else (reply [IUint32 r], last)
  else if String.eqb m getCapabilities then
    (reply [IStrings (mk_slice ["actions"; "body"])], last)
  else if String.eqb m getServerInformation then
    (reply [IString "Notifier"; IString "Acme"; IString "1.2"; IString "1.2"],
     last)
  else if String.eqb m closeNotification then (reply [], last)
  else (refuse "org.freedesktop.DBus.Error.UnknownMethod", last).

(** A server whose replies do not have the shape the client expects. *)
Definition garbled (rq : dbus.request) (st : unit) : dbus.Call * unit :=
  let m := dbus.rq_method rq in
  if String.eqb m notify then (reply [], st)
  else if String.eqb m getCapabilities then (reply [IUint32 7], st)
  else if String.eqb m getServerInformation then
    (reply [IString "Notifier"; IString "Acme"; IUint32 12; IString "1.2"], st)
  else (refuse "org.freedesktop.DBus.Error.ServiceUnknown", st).

(** A program state with one notifier, at address 1, on connection 1. *)
Definition start {Bus} (b : Bus) : world Bus :=
  Build_world {[ 1%positive := Build_notifier 1%positive ]} b [] [].

Definition mail : Notification :=
  Build_Notification "Test GO App" 0 "mail-unread" "Test"
    "This is a test of the DBus bindings for go."
    (mk_slice []) (Some ∅) 5000.

(** The same notification sent again to replace notification 42. *)
Definition replacement : Notification :=
  Build_Notification "Test GO App" 42 "mail-read" "Test" "" nil_slice None (-1).

(** The pointer to the notifier of [start]. *)
Definition me : notifier_ptr := Some 1%positive.

End Double.

(** ** A bus without the service, and a client that sends and closes *)

Module Outage.

(** The error a bus gives for a name nobody owns; its body is the text of
    the message. *)
Definition service_unknown : error_value :=
  dbus_Error "org.freedesktop.DBus.Error.ServiceUnknown"
    [IString "The name org.freedesktop.Notifications was not provided by any .service files"].

(** No notification server is running: every call comes back with that
    error, and the body of the call holds the values of the error reply. *)
Definition down (rq : dbus.request) (st : unit) : dbus.Call * unit :=
  (dbus.Build_Call (Some service_unknown)
     [IString "The name org.freedesktop.Notifications was not provided by any .service files"],
   st).

End Outage.

(** [id, _ := self.SendNotification(n); self.CloseNotification(int(id))]:
    show a notification and take it down again. *)
Definition send_then_close {Bus} (serve : dbus.request -> Bus -> dbus.Call * Bus)
    (self : notifier_ptr) (n : Notification) : M Bus (bool * error) :=
  bind (notifier_SendNotification serve self n)
    (fun r => CloseNotification serve self r.1).

(** ** The decoder *)

Section Store.

Import dbus.

Lemma store_each_types (src dest : list iface) :
  type_of <$> (store_each src dest).1 = type_of <$> dest.
Proof.
  revert dest. induction src as [|v src IH]; intros [|d dest]; simpl; try done.
  case_decide as Ht; [|done].
  specialize (IH dest). destruct (store_each src dest) as [ds e]; simpl in *.
  by f_equal.
Qed.

Lemma Store_types (src dest : list iface) :
  type_of <$> (Store src dest).1 = type_of <$> dest.
Proof. unfold Store. case_decide; [apply store_each_types | done]. Qed.

(** One destination: the reply is stored when it is one value of the
    destination's type ... *)
Lemma Store_one_ok (v d : iface) :
  type_of d = type_of v -> Store [v] [d] = ([v], None).
Proof. intros Ht. unfold Store; simpl. by rewrite decide_True. Qed.

(** ... and in every other case the destination is left as it was. *)
Lemma Store_one_fault (body : list iface) (d : iface) :
  (forall v, body = [v] -> type_of d <> type_of v) ->
  exists e, Store body [d] = ([d], Some e).
Proof.
  intros Hbad. unfold Store.
  destruct body as [|v [|v' body]]; simpl.
  - by exists length_mismatch.
  - rewrite decide_False by (by apply Hbad). by exists type_mismatch.
  - by exists length_mismatch.
Qed.

Lemma type_of_uint32 (v : iface) :
  type_of v = TUint32 -> exists u, v = IUint32 u.
Proof. destruct v; try done. by eexists. Qed.

Lemma type_of_string (v : iface) :
  type_of v = TString -> exists s, v = IString s.
Proof. destruct v; try done. by eexists. Qed.

Lemma leading_strings_length (vs : list iface) :
  (length (leading_strings vs) <= length vs)%nat.
Proof.
  induction vs as [|v vs IH]; simpl; [lia|].
  destruct v; simpl; lia.
Qed.

Lemma leading_strings_all (vs : list iface) :
  length (leading_strings vs) = length vs ->
  vs = IString <$> leading_strings vs.
Proof.
  induction vs as [|v vs IH]; [done|].
  destruct v; simpl; try done.
  intros [= Hlen]. f_equal. by apply IH.
Qed.

(** Storing into string variables: the leading strings of the reply are
    stored, the other variables keep their content, and the error says
    whether every value was a string. *)
Lemma store_each_strings (src : list iface) (k : nat) :
  length src = k ->
  store_each src (replicate k (IString "")) =
  ((IString <$> leading_strings src)
     ++ replicate (k - length (leading_strings src)) (IString ""),
   if decide (length (leading_strings src) = length src) then None
   else Some type_mismatch).
Proof.
  revert k. induction src as [|v src IH]; intros k Hk; simpl in Hk; subst k;
    [done|].
  specialize (IH (length src) eq_refl).
  pose proof (leading_strings_length src) as Hle.
  change (replicate (S (length src)) (IString ""))
    with (IString "" :: replicate (length src) (IString "")).
  cbn [store_each].
  destruct (decide (type_of (IString "") = type_of v)) as [Ht|Ht].
  - symmetry in Ht. destruct (type_of_string v Ht) as [x ->].
    rewrite IH. cbn [leading_strings length]. rewrite fmap_cons.
    replace (S (length src) - S (length (leading_strings src)))%nat
      with (length src - length (leading_strings src))%nat by lia.
    repeat case_decide; try done; lia.
  - assert (leading_strings (v :: src) = []) as ->
      by (destruct v; simpl; try done; by destruct Ht).
    done.
Qed.

Lemma string_at_decoded (pre : list string) (k i : nat) :
  string_at i ((IString <$> pre) ++ replicate k (IString "")) = field_at i pre.
Proof.
  unfold string_at, field_at.
  destruct (decide (i < length pre)%nat) as [Hi|Hi].
  - rewrite lookup_app_l by (by rewrite length_fmap).
    rewrite list_lookup_fmap.
    destruct (lookup_lt_is_Some_2 pre i Hi) as [x ->]. done.
  - rewrite lookup_app_r by (rewrite length_fmap; lia).
    rewrite (lookup_ge_None_2 pre i) by lia. simpl.
    destruct (replicate k (IString "") !! _) as [x|] eqn:Hx; [|done].
    by apply lookup_replicate in Hx as [-> _].
Qed.

End Store.

(** [uint32(x)] is [x] modulo 2^32. *)
Lemma to_uint32_mod (x : Z) : to_uint32 x = x mod 2 ^ 32.
Proof.
  unfold to_uint32, uint32_max.
  change 0xFFFFFFFF with (Z.ones 32). by rewrite Z.land_ones.
Qed.

Lemma to_uint32_range (x : Z) : 0 <= to_uint32 x < 2 ^ 32.
Proof. rewrite to_uint32_mod. apply Z.mod_pos_bound. lia. Qed.

(** ** Properties of the operations *)

Section Properties.

Context {Bus : Type} (serve : dbus.request -> Bus -> dbus.Call * Bus).

Implicit Types (w : world Bus) (c : Conn) (n : Notification).

Lemma Object_Call_run (o : dbus.Object) (m : string) (fl : Z)
    (args : list iface) w :
  let rq := dbus.Build_request (dbus.o_conn o) (dbus.o_dest o)
              (dbus.o_path o) m fl args in
  Object_Call serve (Some o) m fl args w =
  (Returned (serve rq (bus w)).1, after_call serve rq w).
Proof.
  unfold Object_Call, after_call; simpl. by destruct (serve _ _).
Qed.

(** [SendNotification], one case per way the reply can look. *)
Lemma SendNotification_run c n w :
  let call := (serve (notify_request c n) (bus w)).1 in
  let w' := after_call serve (notify_request c n) w in
  SendNotification serve c n w =
  match dbus.Err call with
  | Some e => (Returned (0, Some e), w')
  | None =>
      let '(vars, err) := dbus.Store (dbus.Body call) [IUint32 0] in
      match err with
      | Some e =>
          (Returned (dbus.uint32_at 0 vars, err),
           with_log_line w' "error getting uint32 ret value: %v" [LError err])
      | None => (Returned (dbus.uint32_at 0 vars, None), w')
      end
  end.
Proof.
  intros call w'. unfold SendNotification, bind, dbus.Conn_Object.
  rewrite Object_Call_run. simpl. fold (notify_request c n). fold call w'.
  unfold dbus.Call_Store.
  destruct (dbus.Err call) as [e|]; [done|].
  destruct (dbus.Store _ _) as [vars [e|]]; done.
Qed.

(** C1: [SendNotification] puts exactly one request on the wire, the call
    of the remote [Notify], and its arguments are the eight fields of the
    notification as they are, in the order AppName, ReplacesID, AppIcon,
    Summary, Body, Actions, Hints, ExpireTimeout. *)
Theorem SendNotification_forwards_fields c n w :
  let w' := (SendNotification serve c n w).2 in
  wire w' =
    wire w ++
    [dbus.Build_request c "org.freedesktop.Notifications"
       "/org/freedesktop/Notifications"
       "org.freedesktop.Notifications.Notify" 0
       [IString (AppName n); IUint32 (ReplacesID n); IString (AppIcon n);
        IString (Summary n); IString (Body n); IStrings (Actions n);
        IHints (Hints n); IInt32 (ExpireTimeout n)]]
  /\ bus w' = (serve (notify_request c n) (bus w)).2.
Proof.
  intros w'. subst w'. rewrite SendNotification_run.
  destruct (dbus.Err _) as [e|]; [done|].
  destruct (dbus.Store _ _) as [vars [e|]]; done.
Qed.

(** C2: when the reply to [Notify] carries one unsigned 32-bit integer
    [v], [SendNotification] returns [v] itself and a nil error.  So a
    server that echoes a nonzero ReplacesID gets that id returned, and a
    server that answers ReplacesID = 0 with a fresh id above zero gets
    that fresh id returned. *)
Theorem SendNotification_returns_reply_id c n w (v : Z) :
  let call := (serve (notify_request c n) (bus w)).1 in
  dbus.Err call = None ->
  dbus.Body call = [IUint32 v] ->
  (SendNotification serve c n w).1 = Returned (v, None)
  /\ (ReplacesID n <> 0 -> v = ReplacesID n ->
      (SendNotification serve c n w).1 = Returned (ReplacesID n, None))
  /\ (ReplacesID n = 0 -> 0 < v ->
      exists id, (SendNotification serve c n w).1 = Returned (id, None)
                 /\ id = v /\ 0 < id).
Proof.
  intros call Herr Hbody.
  assert (Hrun : (SendNotification serve c n w).1 = Returned (v, None)).
  { rewrite SendNotification_run. fold call. rewrite Herr, Hbody.
    by rewrite (Store_one_ok (IUint32 v) (IUint32 0)). }
  split; [done|]. split.
  - intros _ ->. done.
  - intros _ Hpos. by exists v.
Qed.

(** C5: when the reply to [Notify] is anything but one unsigned 32-bit
    integer, [SendNotification] returns (it does not panic) the id 0
    together with the non-nil error of the decoder. *)
Theorem SendNotification_decode_fault c n w :
  let call := (serve (notify_request c n) (bus w)).1 in
  dbus.Err call = None ->
  (forall v, dbus.Body call <> [IUint32 v]) ->
  exists e,
    (dbus.Store (dbus.Body call) [IUint32 0]).2 = Some e
    /\ (SendNotification serve c n w).1 = Returned (0, Some e).
Proof.
  intros call Herr Hbad.
  destruct (Store_one_fault (dbus.Body call) (IUint32 0)) as [e He].
  { intros v Hv Ht. symmetry in Ht.
    destruct (type_of_uint32 v Ht) as [u ->]. by apply (Hbad u). }
  exists e. rewrite SendNotification_run. fold call. by rewrite Herr, He.
Qed.

Lemma deref_run (l : positive) (s : notifier) w :
  heap w !! l = Some s -> deref (Some l) w = (Returned s, w).
Proof. intros Hl. unfold deref. by rewrite Hl. Qed.

Lemma GetCapabilities_run (l : positive) (s : notifier) w :
  heap w !! l = Some s ->
  let call := (serve (capabilities_request (conn s)) (bus w)).1 in
  let w' := after_call serve (capabilities_request (conn s)) w in
  GetCapabilities serve (Some l) w =
  match dbus.Err call with
  | Some e =>
      (Returned (mk_slice [], Some e),
       with_log_line w' "error calling GetCapabilities: %v" [LError (Some e)])
  | None =>
      let '(vars, err) := dbus.Store (dbus.Body call) [IStrings nil_slice] in
      match err with
      | Some e =>
          (Returned (dbus.strings_at 0 vars, err),
           with_log_line w' "error getting capabilities ret value: %v"
             [LError err])
      | None => (Returned (dbus.strings_at 0 vars, None), w')
      end
  end.
Proof.
  intros Hl call w'. unfold GetCapabilities, bind, dbus.Conn_Object.
  rewrite (deref_run l s w Hl), Object_Call_run. simpl.
  fold (capabilities_request (conn s)). fold call w'.
  unfold dbus.Call_Store.
  destruct (dbus.Err call) as [e|]; [done|].
  destruct (dbus.Store _ _) as [vars [e|]]; done.
Qed.

(** C7: when the reply to [GetCapabilities] is one sequence of strings,
    the operation returns that very sequence, in the order received,
    nothing sorted and nothing dropped, with a nil error. *)
Theorem GetCapabilities_returns_reply (l : positive) (s : notifier) w
    (caps : slice string) :
  heap w !! l = Some s ->
  let call := (serve (capabilities_request (conn s)) (bus w)).1 in
  dbus.Err call = None ->
  dbus.Body call = [IStrings caps] ->
  (GetCapabilities serve (Some l) w).1 = Returned (caps, None).
Proof.
  intros Hl call Herr Hbody.
  rewrite (GetCapabilities_run l s w Hl). fold call. rewrite Herr, Hbody.
  by rewrite (Store_one_ok (IStrings caps) (IStrings nil_slice)).
Qed.

Lemma CloseNotification_run (l : positive) (s : notifier) (id : Z) w :
  heap w !! l = Some s ->
  let call := (serve (close_request (conn s) id) (bus w)).1 in
  CloseNotification serve (Some l) id w =
  (Returned (match dbus.Err call with
             | Some e => (false, Some e)
             | None => (true, None)
             end),
   after_call serve (close_request (conn s) id) w).
Proof.
  intros Hl call. unfold CloseNotification, bind, dbus.Conn_Object.
  rewrite (deref_run l s w Hl), Object_Call_run. simpl.
  fold (close_request (conn s) id). fold call.
  by destruct (dbus.Err call).
Qed.

(** C4: [CloseNotification] returns (true, nil) exactly when the call
    came back without an error; that includes the empty reply a server may
    send for an id that is gone.  When the call came back with an error,
    the result is false and the error is the call's error itself. *)
Theorem CloseNotification_result (l : positive) (s : notifier) (id : Z) w :
  heap w !! l = Some s ->
  let call := (serve (close_request (conn s) id) (bus w)).1 in
  let r := (CloseNotification serve (Some l) id w).1 in
  (r = Returned (true, None) <-> dbus.Err call = None)
  /\ (dbus.Err call = None -> dbus.Body call = [] -> r = Returned (true, None))
  /\ (forall e, dbus.Err call = Some e -> r = Returned (false, Some e)).
Proof.
  intros Hl call r. subst r. rewrite (CloseNotification_run l s id w Hl).
  fold call. simpl. destruct (dbus.Err call) as [e|]; repeat split; try done.
  by intros e' [= ->].
Qed.

(** C8: for every integer [id], [CloseNotification] returns, and what it
    sends as the argument of the remote call is [id] modulo 2^32, an
    unsigned 32-bit value. *)
Theorem CloseNotification_narrows_id (l : positive) (s : notifier) (id : Z) w :
  heap w !! l = Some s ->
  (exists r, (CloseNotification serve (Some l) id w).1 = Returned r)
  /\ wire (CloseNotification serve (Some l) id w).2 =
       wire w ++
       [dbus.Build_request (conn s) "org.freedesktop.Notifications"
          "/org/freedesktop/Notifications"
          "org.freedesktop.Notifications.CloseNotification" 0
          [IUint32 (id mod 2 ^ 32)]]
  /\ 0 <= id mod 2 ^ 32 < 2 ^ 32.
Proof.
  intros Hl. rewrite (CloseNotification_run l s id w Hl). simpl.
  split; [by eexists|]. split.
  - unfold close_request. by rewrite to_uint32_mod.
  - apply Z.mod_pos_bound. lia.
Qed.

(** *** The frame: no operation writes to the heap *)

Lemma keeps_heap_ret {A} (a : A) : keeps_heap (@ret Bus A a).
Proof. by intros w. Qed.

Lemma keeps_heap_bind {A B} (m : M Bus A) (k : A -> M Bus B) :
  keeps_heap m -> (forall a, keeps_heap (k a)) -> keeps_heap (bind m k).
Proof.
  intros Hm Hk w. unfold bind. specialize (Hm w).
  destruct (m w) as [[a|msg] w1]; simpl in *; [|done].
  by rewrite Hk.
Qed.

Lemma keeps_heap_deref (self : notifier_ptr) : keeps_heap (@deref Bus self).
Proof.
  intros w. unfold deref. destruct self as [l|]; [|done].
  by destruct (heap w !! l).
Qed.

Lemma keeps_heap_Object_Call obj (m : string) (fl : Z) (args : list iface) :
  keeps_heap (Object_Call serve obj m fl args).
Proof.
  intros w. unfold Object_Call. destruct obj as [o|]; [|done].
  by destruct (serve _ _).
Qed.

Lemma keeps_heap_log_Printf (fmt : string) (ops : list log_operand) :
  keeps_heap (@log_Printf Bus fmt ops).
Proof. by intros w. Qed.

Create HintDb frame.
Hint Resolve keeps_heap_deref keeps_heap_Object_Call keeps_heap_log_Printf : frame.

Ltac frame_step :=
  match goal with
  | |- keeps_heap (bind _ _) => apply keeps_heap_bind; [|intros ?]
  | |- keeps_heap (ret _) => apply keeps_heap_ret
  | |- keeps_heap (match ?x with _ => _ end) => destruct x
  | |- keeps_heap (let '(_, _) := ?x in _) => destruct x
  | |- keeps_heap _ => solve [auto with frame]
  end.

Lemma keeps_heap_SendNotification c n : keeps_heap (SendNotification serve c n).
Proof. unfold SendNotification. repeat frame_step. Qed.

Lemma keeps_heap_notifier_SendNotification self n :
  keeps_heap (notifier_SendNotification serve self n).
Proof.
  unfold notifier_SendNotification. frame_step; [frame_step|].
  apply keeps_heap_SendNotification.
Qed.

Lemma keeps_heap_GetCapabilities self : keeps_heap (GetCapabilities serve self).
Proof. unfold GetCapabilities. repeat frame_step. Qed.

Lemma keeps_heap_CloseNotification self id :
  keeps_heap (CloseNotification serve self id).
Proof. unfold CloseNotification. repeat frame_step. Qed.

Lemma keeps_heap_GetServerInformation self :
  keeps_heap (GetServerInformation serve self).
Proof. unfold GetServerInformation, dbus.Conn_Object. repeat frame_step. Qed.

(** C9: each of the four operations of a notifier leaves the heap as it
    found it: every notifier of the program, and so the receiver and its
    one field [conn], is the same after the call as before, whatever the
    server answers and also when the call panics. *)
Theorem operations_keep_client_state (self : notifier_ptr) n (id : Z) w :
  heap (notifier_SendNotification serve self n w).2 = heap w
  /\ heap (CloseNotification serve self id w).2 = heap w
  /\ heap (GetCapabilities serve self w).2 = heap w
  /\ heap (GetServerInformation serve self w).2 = heap w.
Proof.
  repeat split.
  - apply keeps_heap_notifier_SendNotification.
  - apply keeps_heap_CloseNotification.
  - apply keeps_heap_GetCapabilities.
  - apply keeps_heap_GetServerInformation.
Qed.

Lemma SendNotification_heap_irrelevant c n w (h : gmap positive notifier) :
  let w1 := Build_world h (bus w) (wire w) (logged w) in
  (SendNotification serve c n w1).1 = (SendNotification serve c n w).1
  /\ bus (SendNotification serve c n w1).2 = bus (SendNotification serve c n w).2
  /\ wire (SendNotification serve c n w1).2 = wire (SendNotification serve c n w).2
  /\ logged (SendNotification serve c n w1).2 = logged (SendNotification serve c n w).2.
Proof.
  intros w1. rewrite !SendNotification_run. subst w1. simpl.
  destruct (dbus.Err _) as [e|]; [done|].
  destruct (dbus.Store _ _) as [vars [e|]]; done.
Qed.

(** C10: the method of a notifier made from [c] and the function applied
    to [c] are one code path: on a notifier that holds [c] the method is
    the function, and on a freshly made [&notifier{c}] it returns the same
    id and error, sends the same request and logs the same lines. *)
Theorem method_is_function c n w :
  (forall l, heap w !! l = Some (Build_notifier c) ->
     notifier_SendNotification serve (Some l) n w = SendNotification serve c n w)
  /\ (let via_method :=
        bind (New c) (fun self => notifier_SendNotification serve self n) w in
      let direct := SendNotification serve c n w in
      via_method.1 = direct.1
      /\ bus via_method.2 = bus direct.2
      /\ wire via_method.2 = wire direct.2
      /\ logged via_method.2 = logged direct.2).
Proof.
  split.
  - intros l Hl. unfold notifier_SendNotification, bind.
    by rewrite (deref_run l _ w Hl).
  - unfold bind, New, alloc, notifier_SendNotification, bind. simpl.
    unfold deref. simpl. rewrite lookup_insert_eq. simpl.
    apply (SendNotification_heap_irrelevant c n w).
Qed.

Lemma GetServerInformation_run (l : positive) (s : notifier) w :
  heap w !! l = Some s ->
  let call := (serve (information_request (conn s)) (bus w)).1 in
  let w' := after_call serve (information_request (conn s)) w in
  GetServerInformation serve (Some l) w =
  match dbus.Err call with
  | Some e =>
      (Returned (ServerInformation_zero, Some e),
       with_log_line w' "Error calling %v: %v"
         [LString getServerInformation; LError (Some e)])
  | None =>
      let '(vars, err) :=
        dbus.Store (dbus.Body call) (replicate 4 (IString "")) in
      let r := Build_ServerInformation
                 (dbus.string_at 0 vars) (dbus.string_at 1 vars)
                 (dbus.string_at 2 vars) (dbus.string_at 3 vars) in
      match err with
      | Some e =>
          (Returned (r, err),
           with_log_line w' "error reading %v return values: %v"
             [LString getServerInformation; LError err])
      | None => (Returned (r, None), w')
      end
  end.
Proof.
  intros Hl call w'. unfold GetServerInformation, bind, dbus.Conn_Object.
  rewrite (deref_run l s w Hl), Object_Call_run. simpl.
  fold (information_request (conn s)). fold call w'.
  unfold dbus.Call_Store.
  destruct (dbus.Err call) as [e|]; [done|].
  destruct (dbus.Store _ _) as [vars [e|]]; done.
Qed.

(** C6: a reply of four strings is decoded into Name, Vendor, Version and
    SpecVersion in that order, with a nil error.  Any other reply gives a
    non-nil error and a result that holds the strings decoded before the
    fault, each in its field, and the empty string in every field from the
    fault on. *)
Theorem GetServerInformation_decodes (l : positive) (s : notifier) w :
  heap w !! l = Some s ->
  let call := (serve (information_request (conn s)) (bus w)).1 in
  let r := (GetServerInformation serve (Some l) w).1 in
  dbus.Err call = None ->
  (forall name vendor version spec : string,
     dbus.Body call = [IString name; IString vendor; IString version; IString spec] ->
     r = Returned (Build_ServerInformation name vendor version spec, None))
  /\ ((forall name vendor version spec : string,
        dbus.Body call <> [IString name; IString vendor; IString version; IString spec]) ->
      let decoded := decoded_strings (dbus.Body call) in
      (length decoded < 4)%nat
      /\ exists e,
           r = Returned
                 (Build_ServerInformation
                    (field_at 0 decoded) (field_at 1 decoded)
                    (field_at 2 decoded) (field_at 3 decoded),
                  Some e)).
Proof.
  intros Hl call r Herr. subst r.
  rewrite (GetServerInformation_run l s w Hl). fold call. rewrite Herr.
  split.
  - by intros name vendor version spec ->.
  - intros Hbad decoded. subst decoded. unfold decoded_strings, dbus.Store.
    simpl length. case_decide as Hlen; [|split; [simpl; lia | by eexists]].
    rewrite (store_each_strings _ 4 Hlen). rewrite !string_at_decoded.
    assert (Hlt : length (leading_strings (dbus.Body call))
                  <> length (dbus.Body call)).
    { intros Hall. apply leading_strings_all in Hall.
      destruct (leading_strings (dbus.Body call))
        as [|a [|b [|c [|d [|x pre]]]]]; rewrite Hall in Hlen; try done.
      by apply (Hbad a b c d). }
    rewrite decide_False by done.
    pose proof (leading_strings_length (dbus.Body call)).
    split; [lia | by eexists].
Qed.

End Properties.

(** ** The theorems at work on the doubles *)

Section Instances.

Import Double.

(** A fresh id from the honest server, and the echo of a replaced id. *)
Lemma SendNotification_returns_reply_id_witness :
  (SendNotification honest 1%positive mail (start 41)).1 = Returned (42, None)
  /\ (SendNotification honest 1%positive replacement (start 99)).1
     = Returned (42, None).
Proof.
  split.
  - apply (proj1 (SendNotification_returns_reply_id honest 1%positive mail
                    (start 41) 42 eq_refl eq_refl)).
  - apply (proj1 (proj2 (SendNotification_returns_reply_id honest 1%positive
                           replacement (start 99) 42 eq_refl eq_refl)));
      [discriminate | reflexivity].
Defined.

(** The garbled server leaves the id out of its reply. *)
Lemma SendNotification_decode_fault_witness :
  exists e,
    (dbus.Store [] [IUint32 0]).2 = Some e
    /\ (SendNotification garbled 1%positive mail (start tt)).1
       = Returned (0, Some e).
Proof.
  apply (SendNotification_decode_fault garbled 1%positive mail (start tt));
    [reflexivity | intros v; discriminate].
Defined.

(** The capabilities of the honest server, in its order. *)
Lemma GetCapabilities_returns_reply_witness :
  (GetCapabilities honest me (start 0)).1
  = Returned (mk_slice ["actions"; "body"], None).
Proof.
  apply (GetCapabilities_returns_reply honest 1%positive
           (Build_notifier 1%positive) (start 0) (mk_slice ["actions"; "body"]));
    reflexivity.
Defined.

(** C3: the code does not do what the claim says.  The garbled server
    answers [GetCapabilities] with a number: the call completes and the
    reply is not a sequence of strings.  What comes back with the error is
    the nil slice, the destination variable as declared, and not an
    allocated slice of length zero, although the other error path of the
    same function, taken when the service is down, returns the allocated
    slice. *)
Lemma GetCapabilities_decode_fault_returns_nil :
  let call := (garbled (capabilities_request 1%positive) tt).1 in
  let r := (GetCapabilities garbled me (start tt)).1 in
  dbus.Err call = None
  /\ (forall caps, dbus.Body call <> [IStrings caps])
  /\ r = Returned (nil_slice, Some dbus.type_mismatch)
  /\ ~ (exists e, r = Returned (mk_slice [], e))
  /\ (GetCapabilities Outage.down me (start tt)).1
     = Returned (mk_slice [], Some Outage.service_unknown).
Proof.
  repeat split.
  - intros caps; discriminate.
  - intros [e He]. discriminate He.
Qed.

(** Closing on the honest server (an empty reply) and on a server that
    refuses the call. *)
Lemma CloseNotification_result_witness :
  (CloseNotification honest me 7 (start 0)).1 = Returned (true, None)
  /\ (CloseNotification garbled me 7 (start tt)).1
     = Returned
         (false, Some (dbus_Error "org.freedesktop.DBus.Error.ServiceUnknown" [])).
Proof.
  split.
  - apply (proj1 (proj2 (CloseNotification_result honest 1%positive
                           (Build_notifier 1%positive) 7 (start 0) eq_refl)));
      reflexivity.
  - apply (proj2 (proj2 (CloseNotification_result garbled 1%positive
                           (Build_notifier 1%positive) 7 (start tt) eq_refl)));
      reflexivity.
Defined.

(** Closing with the id -1 sends 4294967295. *)
Lemma CloseNotification_narrows_id_witness :
  wire (CloseNotification honest me (-1) (start 0)).2 =
    [dbus.Build_request 1%positive "org.freedesktop.Notifications"
       "/org/freedesktop/Notifications"
       "org.freedesktop.Notifications.CloseNotification" 0
       [IUint32 4294967295]].
Proof.
  apply (proj1 (proj2 (CloseNotification_narrows_id honest 1%positive
                         (Build_notifier 1%positive) (-1) (start 0) eq_refl))).
Defined.

(** The identity of the honest server, and what is left of a reply whose
    third value is a number. *)
Lemma GetServerInformation_decodes_witness :
  (GetServerInformation honest me (start 0)).1
  = Returned (Build_ServerInformation "Notifier" "Acme" "1.2" "1.2", None)
  /\ exists e,
       (GetServerInformation garbled me (start tt)).1
       = Returned (Build_ServerInformation "Notifier" "Acme" "" "", Some e).
Proof.
  split.
  - apply (proj1 (GetServerInformation_decodes honest 1%positive
                    (Build_notifier 1%positive) (start 0) eq_refl eq_refl)).
    reflexivity.
  - apply (proj2 (GetServerInformation_decodes garbled 1%positive
                    (Build_notifier 1%positive) (start tt) eq_refl eq_refl)).
    intros name vendor version spec; discriminate.
Defined.

(** The notifier of [start] holds connection 1. *)
Lemma method_is_function_witness :
  notifier_SendNotification honest me mail (start 0)
  = SendNotification honest 1%positive mail (start 0).
Proof.
  apply (proj1 (method_is_function honest 1%positive mail (start 0)) 1%positive).
  reflexivity.
Defined.

End Instances.

(** ** Faults of the round trip, the log, and how the operations compose *)

Section Faults.

Context {Bus : Type} (serve : dbus.request -> Bus -> dbus.Call * Bus).

Implicit Types (w : world Bus) (c : Conn) (n : Notification).

(** X1: when the call of [Notify] comes back with an error, whatever the
    body of the call holds, [SendNotification] returns the id 0 and that
    same error, and writes nothing to the log. *)
Theorem SendNotification_transport_fault c n w (e : error_value) :
  let call := (serve (notify_request c n) (bus w)).1 in
  dbus.Err call = Some e ->
  (SendNotification serve c n w).1 = Returned (0, Some e)
  /\ logged (SendNotification serve c n w).2 = logged w.
Proof.
  intros call Herr. rewrite SendNotification_run. fold call.
  by rewrite Herr.
Qed.

(** X2: when the call of [GetCapabilities] comes back with an error, the
    operation returns that same error with an allocated slice of length
    zero (not the nil slice), and logs the error in one line. *)
Theorem GetCapabilities_transport_fault (l : positive) (s : notifier) w
    (e : error_value) :
  heap w !! l = Some s ->
  let call := (serve (capabilities_request (conn s)) (bus w)).1 in
  dbus.Err call = Some e ->
  (exists caps,
     (GetCapabilities serve (Some l) w).1 = Returned (caps, Some e)
     /\ is_nil caps = false /\ len caps = 0%nat)
  /\ logged (GetCapabilities serve (Some l) w).2 =
     logged w ++
     [Build_log_line "error calling GetCapabilities: %v" [LError (Some e)]].
Proof.
  intros Hl call Herr. rewrite (GetCapabilities_run serve l s w Hl).
  fold call. rewrite Herr. split; [|done].
  by exists (mk_slice []).
Qed.

(** X3: when the call of [GetServerInformation] comes back with an error,
    the operation returns that same error with the record of four empty
    strings, whatever the body of the call holds, and logs the method name
    and the error in one line. *)
Theorem GetServerInformation_transport_fault (l : positive) (s : notifier) w
    (e : error_value) :
  heap w !! l = Some s ->
  let call := (serve (information_request (conn s)) (bus w)).1 in
  dbus.Err call = Some e ->
  (GetServerInformation serve (Some l) w).1 =
    Returned (Build_ServerInformation "" "" "" "", Some e)
  /\ logged (GetServerInformation serve (Some l) w).2 =
     logged w ++
     [Build_log_line "Error calling %v: %v"
        [LString "org.freedesktop.Notifications.GetServerInformation";
         LError (Some e)]].
Proof.
  intros Hl call Herr. rewrite (GetServerInformation_run serve l s w Hl).
  fold call. by rewrite Herr.
Qed.

(** X4: [New] returns a non-nil pointer to a notifier that holds the given
    connection, at an address that was free; taking that address away again
    gives back the old heap, so no existing notifier is touched; and [New]
    does not use the bus or the log. *)
Theorem New_allocates c w :
  exists l,
    (New c w).1 = Returned (Some l)
    /\ heap w !! l = None
    /\ heap (New c w).2 !! l = Some (Build_notifier c)
    /\ delete l (heap (New c w).2) = heap w
    /\ bus (New c w).2 = bus w
    /\ wire (New c w).2 = wire w
    /\ logged (New c w).2 = logged w.
Proof.
  exists (fresh (dom (heap w))).
  assert (Hfree : heap w !! fresh (dom (heap w)) = None)
    by (apply not_elem_of_dom, is_fresh).
  unfold New, alloc; simpl. repeat split; try done.
  - apply lookup_insert_eq.
  - by rewrite delete_insert_id.
Qed.

(** *** Helpers: the method form, the receiver, one round trip *)

Lemma notifier_SendNotification_run (l : positive) (s : notifier) n w :
  heap w !! l = Some s ->
  notifier_SendNotification serve (Some l) n w = SendNotification serve (conn s) n w.
Proof.
  intros Hl. unfold notifier_SendNotification, bind.
  by rewrite (deref_run l s w Hl).
Qed.

(** A receiver is either a pointer to a notifier of the heap, or reading
    it panics before anything else happens. *)
Lemma receiver_cases (self : notifier_ptr) w :
  (exists l s, self = Some l /\ heap w !! l = Some s)
  \/ (forall A (k : notifier -> M Bus A),
        bind (deref self) k w = (Panicked nil_dereference, w)).
Proof.
  destruct self as [l|].
  - destruct (heap w !! l) as [s|] eqn:Hl.
    + left. by exists l, s.
    + right. intros A k. unfold bind, deref. by rewrite Hl.
  - right. by intros A k.
Qed.

Lemma New_run c w :
  let l := fresh (dom (heap w)) in
  let w1 := Build_world (<[l := Build_notifier c]> (heap w))
              (bus w) (wire w) (logged w) in
  New c w = (Returned (Some l), w1)
  /\ heap w1 !! l = Some (Build_notifier c).
Proof. split; [done|]. apply lookup_insert_eq. Qed.

Lemma SendNotification_round_trip c n w :
  (exists r, (SendNotification serve c n w).1 = Returned r)
  /\ wire (SendNotification serve c n w).2 = wire w ++ [notify_request c n]
  /\ bus (SendNotification serve c n w).2 = (serve (notify_request c n) (bus w)).2.
Proof.
  rewrite SendNotification_run.
  destruct (dbus.Err _) as [e|]; [by eauto|].
  destruct (dbus.Store _ _) as [vars [e|]]; by eauto.
Qed.

Lemma GetCapabilities_round_trip (l : positive) (s : notifier) w :
  heap w !! l = Some s ->
  (exists r, (GetCapabilities serve (Some l) w).1 = Returned r)
  /\ wire (GetCapabilities serve (Some l) w).2 =
     wire w ++ [capabilities_request (conn s)]
  /\ bus (GetCapabilities serve (Some l) w).2 =
     (serve (capabilities_request (conn s)) (bus w)).2.
Proof.
  intros Hl. rewrite (GetCapabilities_run serve l s w Hl).
  destruct (dbus.Err _) as [e|]; [by eauto|].
  destruct (dbus.Store _ _) as [vars [e|]]; by eauto.
Qed.

Lemma GetServerInformation_round_trip (l : positive) (s : notifier) w :
  heap w !! l = Some s ->
  (exists r, (GetServerInformation serve (Some l) w).1 = Returned r)
  /\ wire (GetServerInformation serve (Some l) w).2 =
     wire w ++ [information_request (conn s)]
  /\ bus (GetServerInformation serve (Some l) w).2 =
     (serve (information_request (conn s)) (bus w)).2.
Proof.
  intros Hl. rewrite (GetServerInformation_run serve l s w Hl).
  destruct (dbus.Err _) as [e|]; [by eauto|].
  destruct (dbus.Store _ _) as [vars [e|]]; by eauto.
Qed.

(** What [Store] leaves in a single destination when it fails. *)
Lemma Store_one_error (body : list iface) (d : iface) (vars : list iface)
    (e : error_value) :
  dbus.Store body [d] = (vars, Some e) -> vars = [d].
Proof.
  unfold dbus.Store. destruct body as [|v [|v' body]]; simpl.
  - by intros [= <- _].
  - case_decide; [done | by intros [= <- _]].
  - by intros [= <- _].
Qed.

(** X5: a notifier made by [New] can be used at once: each of the four
    methods called on the pointer that [New] returns comes back without a
    panic, and its request goes out on the connection given to [New]. *)
Theorem methods_on_New_return c n (id : Z) w :
  ((exists r, (bind (New c) (fun self => notifier_SendNotification serve self n) w).1
              = Returned r)
   /\ wire (bind (New c) (fun self => notifier_SendNotification serve self n) w).2
      = wire w ++ [notify_request c n])
  /\ ((exists r, (bind (New c) (fun self => CloseNotification serve self id) w).1
                 = Returned r)
      /\ wire (bind (New c) (fun self => CloseNotification serve self id) w).2
         = wire w ++ [close_request c id])
  /\ ((exists r, (bind (New c) (fun self => GetCapabilities serve self) w).1
                 = Returned r)
      /\ wire (bind (New c) (fun self => GetCapabilities serve self) w).2
         = wire w ++ [capabilities_request c])
  /\ ((exists r, (bind (New c) (fun self => GetServerInformation serve self) w).1
                 = Returned r)
      /\ wire (bind (New c) (fun self => GetServerInformation serve self) w).2
         = wire w ++ [information_request c]).
Proof.
  destruct (New_run c w) as [Hnew Hl]. unfold bind. rewrite Hnew.
  set (l := fresh (dom (heap w))) in *.
  set (w1 := Build_world _ _ _ _) in *.
  change (wire w) with (wire w1).
  repeat apply conj.
  - rewrite (notifier_SendNotification_run l _ n w1 Hl).
    apply SendNotification_round_trip.
  - rewrite (notifier_SendNotification_run l _ n w1 Hl).
    apply SendNotification_round_trip.
  - rewrite (CloseNotification_run serve l _ id w1 Hl). by eexists.
  - by rewrite (CloseNotification_run serve l _ id w1 Hl).
  - apply (GetCapabilities_round_trip l _ w1 Hl).
  - apply (GetCapabilities_round_trip l _ w1 Hl).
  - apply (GetServerInformation_round_trip l _ w1 Hl).
  - apply (GetServerInformation_round_trip l _ w1 Hl).
Qed.

(** X6: on a valid receiver, [GetCapabilities] and [GetServerInformation]
    each return, and each makes exactly one call: to the method of its
    name, without arguments and with flags 0, on the object
    /org/freedesktop/Notifications of org.freedesktop.Notifications, over
    the receiver's connection; the bus is left as that one call leaves it. *)
Theorem queries_make_one_call (l : positive) (s : notifier) w :
  heap w !! l = Some s ->
  ((exists r, (GetCapabilities serve (Some l) w).1 = Returned r)
   /\ wire (GetCapabilities serve (Some l) w).2 =
      wire w ++
      [dbus.Build_request (conn s) "org.freedesktop.Notifications"
         "/org/freedesktop/Notifications"
         "org.freedesktop.Notifications.GetCapabilities" 0 []]
   /\ bus (GetCapabilities serve (Some l) w).2 =
      (serve (capabilities_request (conn s)) (bus w)).2)
  /\ ((exists r, (GetServerInformation serve (Some l) w).1 = Returned r)
      /\ wire (GetServerInformation serve (Some l) w).2 =
         wire w ++
         [dbus.Build_request (conn s) "org.freedesktop.Notifications"
            "/org/freedesktop/Notifications"
            "org.freedesktop.Notifications.GetServerInformation" 0 []]
      /\ bus (GetServerInformation serve (Some l) w).2 =
         (serve (information_request (conn s)) (bus w)).2).
Proof.
  intros Hl. split.
  - apply (GetCapabilities_round_trip l s w Hl).
  - apply (GetServerInformation_round_trip l s w Hl).
Qed.

Ltac on_receiver self w :=
  let l := fresh "l" in
  let s := fresh "s" in
  let Hl := fresh "Hl" in
  let Hp := fresh "Hp" in
  destruct (receiver_cases self w) as [(l & s & -> & Hl)|Hp].

(** X7: an operation that returns a nil error has written nothing to the
    log, and [CloseNotification] writes nothing to the log in any case. *)
Theorem nil_error_logs_nothing (self : notifier_ptr) n (id : Z) w :
  (forall x, (notifier_SendNotification serve self n w).1 = Returned (x, None) ->
     logged (notifier_SendNotification serve self n w).2 = logged w)
  /\ (forall x, (GetCapabilities serve self w).1 = Returned (x, None) ->
        logged (GetCapabilities serve self w).2 = logged w)
  /\ (forall x, (GetServerInformation serve self w).1 = Returned (x, None) ->
        logged (GetServerInformation serve self w).2 = logged w)
  /\ logged (CloseNotification serve self id w).2 = logged w.
Proof.
  on_receiver self w.
  - rewrite (notifier_SendNotification_run l s n w Hl), SendNotification_run,
      (GetCapabilities_run serve l s w Hl),
      (GetServerInformation_run serve l s w Hl),
      (CloseNotification_run serve l s id w Hl).
    repeat apply conj; try done; intros x.
    + destruct (dbus.Err _) as [e|]; [done|].
      destruct (dbus.Store _ _) as [vars [e|]]; done.
    + destruct (dbus.Err _) as [e|]; [done|].
      destruct (dbus.Store _ _) as [vars [e|]]; done.
    + destruct (dbus.Err _) as [e|]; [done|].
      destruct (dbus.Store _ _) as [vars [e|]]; done.
  - unfold notifier_SendNotification, GetCapabilities, GetServerInformation,
      CloseNotification.
    rewrite !Hp. by repeat split.
Qed.

(** X8: a decode fault is logged once, and what is logged is the error
    that is returned: when the call came back without an error and the
    operation still returns an error [e], the log has grown by exactly one
    line whose last operand is [e]. *)
Theorem decode_fault_is_logged (l : positive) (s : notifier) n w
    (e : error_value) :
  heap w !! l = Some s ->
  (dbus.Err (serve (notify_request (conn s) n) (bus w)).1 = None ->
   forall x, (SendNotification serve (conn s) n w).1 = Returned (x, Some e) ->
     logged (SendNotification serve (conn s) n w).2 =
     logged w ++
     [Build_log_line "error getting uint32 ret value: %v" [LError (Some e)]])
  /\ (dbus.Err (serve (capabilities_request (conn s)) (bus w)).1 = None ->
      forall x, (GetCapabilities serve (Some l) w).1 = Returned (x, Some e) ->
        logged (GetCapabilities serve (Some l) w).2 =
        logged w ++
        [Build_log_line "error getting capabilities ret value: %v"
           [LError (Some e)]])
  /\ (dbus.Err (serve (information_request (conn s)) (bus w)).1 = None ->
      forall x, (GetServerInformation serve (Some l) w).1 = Returned (x, Some e) ->
        logged (GetServerInformation serve (Some l) w).2 =
        logged w ++
        [Build_log_line "error reading %v return values: %v"
           [LString "org.freedesktop.Notifications.GetServerInformation";
            LError (Some e)]]).
Proof.
  intros Hl.
  rewrite SendNotification_run, (GetCapabilities_run serve l s w Hl),
    (GetServerInformation_run serve l s w Hl).
  repeat apply conj; intros -> x.
  - destruct (dbus.Store _ _) as [vars [e'|]]; [|done]. by intros [= _ ->].
  - destruct (dbus.Store _ _) as [vars [e'|]]; [|done]. by intros [= _ ->].
  - destruct (dbus.Store _ _) as [vars [e'|]]; [|done]. by intros [= _ ->].
Qed.

(** X9: what comes with an error.  Whatever the server answers: an error
    from [SendNotification] comes with the id 0; an error from
    [GetCapabilities] comes with a sequence of length zero; and
    [CloseNotification] returns true exactly when its error is nil. *)
Theorem results_that_come_with_an_error (self : notifier_ptr) c n (id : Z) w :
  (forall x e, (SendNotification serve c n w).1 = Returned (x, Some e) -> x = 0)
  /\ (forall caps e, (GetCapabilities serve self w).1 = Returned (caps, Some e) ->
        len caps = 0%nat)
  /\ (forall ok err, (CloseNotification serve self id w).1 = Returned (ok, err) ->
        (ok = true <-> err = None)).
Proof.
  repeat apply conj.
  - intros x e. rewrite SendNotification_run.
    destruct (dbus.Err _) as [e'|]; [by intros [= <- _]|].
    destruct (dbus.Store _ _) as [vars [e'|]] eqn:Hst; [|done].
    apply Store_one_error in Hst as ->. by intros [= <- _].
  - intros caps e. on_receiver self w.
    + rewrite (GetCapabilities_run serve l s w Hl).
      destruct (dbus.Err _) as [e'|]; [by intros [= <- _]|].
      destruct (dbus.Store _ _) as [vars [e'|]] eqn:Hst; [|done].
      apply Store_one_error in Hst as ->. by intros [= <- _].
    + unfold GetCapabilities. by rewrite Hp.
  - intros ok err. on_receiver self w.
    + rewrite (CloseNotification_run serve l s id w Hl).
      destruct (dbus.Err _) as [e'|]; by intros [= <- <-].
    + unfold CloseNotification. by rewrite Hp.
Qed.

(** X10: an id that is an unsigned 32-bit number, such as one returned by
    [SendNotification], is sent by [CloseNotification] as it is. *)
Theorem CloseNotification_sends_valid_id (l : positive) (s : notifier)
    (id : Z) w :
  heap w !! l = Some s ->
  0 <= id < 2 ^ 32 ->
  wire (CloseNotification serve (Some l) id w).2 =
    wire w ++
    [dbus.Build_request (conn s) "org.freedesktop.Notifications"
       "/org/freedesktop/Notifications"
       "org.freedesktop.Notifications.CloseNotification" 0 [IUint32 id]].
Proof.
  intros Hl Hid. rewrite (CloseNotification_run serve l s id w Hl). simpl.
  unfold close_request. by rewrite to_uint32_mod, Z.mod_small.
Qed.

(** X11: [CloseNotification] cannot tell apart two ids that differ by a
    multiple of 2^32: the whole call, request and result, is the same. *)
Theorem CloseNotification_congruent_ids (self : notifier_ptr) (id k : Z) w :
  CloseNotification serve self (id + k * 2 ^ 32) w
  = CloseNotification serve self id w.
Proof.
  unfold CloseNotification.
  replace (to_uint32 (id + k * 2 ^ 32)) with (to_uint32 id); [done|].
  rewrite !to_uint32_mod. by rewrite Z_mod_plus_full.
Qed.

(** X12: sending and then closing.  When the server answers [Notify] with
    an unsigned 32-bit id [v], closing with the id that [SendNotification]
    returned makes a second call, of [CloseNotification] with that same
    [v], after the first; and the whole returns without a panic. *)
Theorem send_then_close_closes_what_was_sent (l : positive) (s : notifier) n w
    (v : Z) :
  heap w !! l = Some s ->
  let call := (serve (notify_request (conn s) n) (bus w)).1 in
  dbus.Err call = None ->
  dbus.Body call = [IUint32 v] ->
  0 <= v < 2 ^ 32 ->
  (exists r, (send_then_close serve (Some l) n w).1 = Returned r)
  /\ wire (send_then_close serve (Some l) n w).2 =
     wire w ++
     [notify_request (conn s) n;
      dbus.Build_request (conn s) "org.freedesktop.Notifications"
        "/org/freedesktop/Notifications"
        "org.freedesktop.Notifications.CloseNotification" 0 [IUint32 v]].
Proof.
  intros Hl call Herr Hbody Hv. unfold send_then_close, bind.
  rewrite (notifier_SendNotification_run l s n w Hl), SendNotification_run.
  fold call. rewrite Herr, Hbody.
  rewrite (Store_one_ok (IUint32 v) (IUint32 0)) by done.
  cbn [dbus.uint32_at lookup list_lookup fst].
  set (w1 := after_call serve (notify_request (conn s) n) w).
  assert (Hl1 : heap w1 !! l = Some s) by done.
  rewrite (CloseNotification_run serve l s v w1 Hl1).
  split; [by eexists|]. simpl. rewrite <- app_assoc. simpl.
  unfold close_request. by rewrite to_uint32_mod, Z.mod_small.
Qed.

End Faults.

(** ** The faults and compositions at work on the doubles *)

Section MoreInstances.

Import Double Outage.

(** Sending on a bus without the service. *)
Lemma SendNotification_transport_fault_witness :
  (SendNotification down 1%positive mail (start tt)).1
    = Returned (0, Some service_unknown)
  /\ logged (SendNotification down 1%positive mail (start tt)).2 = [].
Proof.
  apply (SendNotification_transport_fault down 1%positive mail (start tt)
           service_unknown eq_refl).
Defined.

Lemma GetCapabilities_transport_fault_witness :
  (exists caps,
     (GetCapabilities down me (start tt)).1 = Returned (caps, Some service_unknown)
     /\ is_nil caps = false /\ len caps = 0%nat)
  /\ logged (GetCapabilities down me (start tt)).2 =
     [Build_log_line "error calling GetCapabilities: %v"
        [LError (Some service_unknown)]].
Proof.
  apply (GetCapabilities_transport_fault down 1%positive
           (Build_notifier 1%positive) (start tt) service_unknown eq_refl eq_refl).
Defined.

Lemma GetServerInformation_transport_fault_witness :
  (GetServerInformation down me (start tt)).1
    = Returned (Build_ServerInformation "" "" "" "", Some service_unknown)
  /\ logged (GetServerInformation down me (start tt)).2 =
     [Build_log_line "Error calling %v: %v"
        [LString "org.freedesktop.Notifications.GetServerInformation";
         LError (Some service_unknown)]].
Proof.
  apply (GetServerInformation_transport_fault down 1%positive
           (Build_notifier 1%positive) (start tt) service_unknown eq_refl eq_refl).
Defined.

Lemma queries_make_one_call_witness :
  wire (GetCapabilities honest me (start 0)).2 = [capabilities_request 1%positive]
  /\ wire (GetServerInformation honest me (start 0)).2
     = [information_request 1%positive].
Proof.
  split.
  - apply (proj1 (proj2 (proj1 (queries_make_one_call honest 1%positive
                                  (Build_notifier 1%positive) (start 0) eq_refl)))).
  - apply (proj1 (proj2 (proj2 (queries_make_one_call honest 1%positive
                                  (Build_notifier 1%positive) (start 0) eq_refl)))).
Defined.

(** The honest server gives an id and no error: nothing is logged. *)
Lemma nil_error_logs_nothing_witness :
  (notifier_SendNotification honest me mail (start 41)).1 = Returned (42, None)
  /\ logged (notifier_SendNotification honest me mail (start 41)).2 = [].
Proof.
  split; [reflexivity|].
  apply (proj1 (nil_error_logs_nothing honest me mail 0 (start 41)) 42 eq_refl).
Defined.

(** The garbled server leaves the id out: one line, with the error of the
    decoder. *)
Lemma decode_fault_is_logged_witness :
  (SendNotification garbled 1%positive mail (start tt)).1
    = Returned (0, Some dbus.length_mismatch)
  /\ logged (SendNotification garbled 1%positive mail (start tt)).2 =
     [Build_log_line "error getting uint32 ret value: %v"
        [LError (Some dbus.length_mismatch)]].
Proof.
  split; [reflexivity|].
  apply (proj1 (decode_fault_is_logged garbled 1%positive
                  (Build_notifier 1%positive) mail (start tt)
                  dbus.length_mismatch eq_refl) eq_refl 0 eq_refl).
Defined.

Lemma results_that_come_with_an_error_witness :
  (GetCapabilities garbled me (start tt)).1
    = Returned (nil_slice, Some dbus.type_mismatch)
  /\ len (@nil_slice string) = 0%nat
  /\ (CloseNotification down me 7 (start tt)).1
     = Returned (false, Some service_unknown)
  /\ (false = true <-> Some service_unknown = None).
Proof.
  split; [reflexivity|]. split.
  - apply (proj1 (proj2 (results_that_come_with_an_error garbled me 1%positive
                           mail 7 (start tt))) nil_slice dbus.type_mismatch eq_refl).
  - split; [reflexivity|].
    apply (proj2 (proj2 (results_that_come_with_an_error down me 1%positive
                           mail 7 (start tt))) false (Some service_unknown) eq_refl).
Defined.

Lemma CloseNotification_sends_valid_id_witness :
  wire (CloseNotification honest me 42 (start 0)).2 =
    [dbus.Build_request 1%positive "org.freedesktop.Notifications"
       "/org/freedesktop/Notifications"
       "org.freedesktop.Notifications.CloseNotification" 0 [IUint32 42]].
Proof.
  apply (CloseNotification_sends_valid_id honest 1%positive
           (Build_notifier 1%positive) 42 (start 0) eq_refl).
  lia.
Defined.

(** The honest server hands out 42, and 42 is what gets closed. *)
Lemma send_then_close_closes_what_was_sent_witness :
  (exists r, (send_then_close honest me mail (start 41)).1 = Returned r)
  /\ wire (send_then_close honest me mail (start 41)).2 =
     [notify_request 1%positive mail;
      dbus.Build_request 1%positive "org.freedesktop.Notifications"
        "/org/freedesktop/Notifications"
        "org.freedesktop.Notifications.CloseNotification" 0 [IUint32 42]].
Proof.
  apply (send_then_close_closes_what_was_sent honest 1%positive
           (Build_notifier 1%positive) mail (start 41) 42 eq_refl eq_refl eq_refl).
  lia.
Defined.

End MoreInstances.
